(** * salesforce_api_proxy: a Flask forwarder in front of the Salesforce REST API

    Shallow embedding of [salesforce_api_proxy.py].  Each Flask view function
    becomes a computation in a small monad that threads the list of outbound
    HTTP calls made so far and may raise a Python exception.  The [requests]
    library (the network) is a variable of the development: a function from
    the outbound call to either an upstream response or an exception. *)

From Stdlib Require Import String Ascii List ZArith Bool Lia.
From Stdlib Require Import DecimalString.
Import ListNotations.
Local Open Scope string_scope.
Local Open Scope Z_scope.
Set Warnings "-register-all".

(** ** JSON values

    What [request.get_json()] and [response.json()] return.  [JNull] is Python
    [None]; an object is an association list in key order, looked up by its
    first binding.  Numbers are the integral ones. *)

Inductive json : Type :=
| JNull
| JBool (b : bool)
| JNum (n : Z)
| JStr (s : string)
| JArr (items : list json)
| JObj (members : list (string * json)).

Fixpoint lookup (k : string) (l : list (string * json)) : option json :=
  match l with
  | [] => None
  | (k', v) :: l' => if String.eqb k k' then Some v else lookup k l'
  end.

Definition key_in (k : string) (l : list (string * json)) : bool :=
  match lookup k l with Some _ => true | None => false end.

(** ** Python exceptions

    The classes that can reach an [except] clause of the module: the
    [requests.exceptions] hierarchy, the interpreter's own errors raised by
    operations on a value of the wrong type, and werkzeug's errors raised by
    [get_json]. *)

Inductive exn_class : Type :=
| RequestException | HTTPError | ConnectionError | ProxyError | SSLError
| Timeout | ConnectTimeout | ReadTimeout | TooManyRedirects
| MissingSchema | InvalidSchema | InvalidURL | InvalidHeader
| ChunkedEncodingError | ContentDecodingError | JSONDecodeError
| TypeError | AttributeError | KeyError | ValueError | UnboundLocalError
| BadRequest | UnsupportedMediaType.

Record exn : Type := mk_exn { exn_cls : exn_class; exn_str : string }.

(** [isinstance(e, requests.exceptions.Timeout)] *)
Definition is_Timeout (e : exn) : bool :=
  match exn_cls e with
  | Timeout | ConnectTimeout | ReadTimeout => true
  | _ => false
  end.

(** [isinstance(e, requests.exceptions.ProxyError)] *)
Definition is_ProxyError (e : exn) : bool :=
  match exn_cls e with ProxyError => true | _ => false end.

(** [isinstance(e, requests.exceptions.RequestException)]; the decode error of
    [response.json()] is a [RequestException] too (requests 2.27 and later). *)
Definition is_RequestException (e : exn) : bool :=
  match exn_cls e with
  | RequestException | HTTPError | ConnectionError | ProxyError | SSLError
  | Timeout | ConnectTimeout | ReadTimeout | TooManyRedirects
  | MissingSchema | InvalidSchema | InvalidURL | InvalidHeader
  | ChunkedEncodingError | ContentDecodingError | JSONDecodeError => true
  | _ => false
  end.

(** [isinstance(e, ValueError)] *)
Definition is_ValueError (e : exn) : bool :=
  match exn_cls e with
  | ValueError | JSONDecodeError
  | MissingSchema | InvalidSchema | InvalidURL | InvalidHeader => true
  | _ => false
  end.

(** [type(e).__name__] *)
Definition class_name (c : exn_class) : string :=
  match c with
  | RequestException => "RequestException" | HTTPError => "HTTPError"
  | ConnectionError => "ConnectionError" | ProxyError => "ProxyError"
  | SSLError => "SSLError" | Timeout => "Timeout"
  | ConnectTimeout => "ConnectTimeout" | ReadTimeout => "ReadTimeout"
  | TooManyRedirects => "TooManyRedirects" | MissingSchema => "MissingSchema"
  | InvalidSchema => "InvalidSchema" | InvalidURL => "InvalidURL"
  | InvalidHeader => "InvalidHeader"
  | ChunkedEncodingError => "ChunkedEncodingError"
  | ContentDecodingError => "ContentDecodingError"
  | JSONDecodeError => "JSONDecodeError"
  | TypeError => "TypeError" | AttributeError => "AttributeError"
  | KeyError => "KeyError" | ValueError => "ValueError"
  | UnboundLocalError => "UnboundLocalError"
  | BadRequest => "BadRequest" | UnsupportedMediaType => "UnsupportedMediaType"
  end.

Inductive result (A : Type) : Type :=
| Ok (a : A)
| Raise (e : exn).
Arguments Ok {A} a.
Arguments Raise {A} e.

(** ** Python operations on JSON values *)

(** [type(v).__name__] *)
Definition type_name (v : json) : string :=
  match v with
  | JNull => "NoneType" | JBool _ => "bool" | JNum _ => "int"
  | JStr _ => "str" | JArr _ => "list" | JObj _ => "dict"
  end.

(** [bool(v)] *)
Definition truthy (v : json) : bool :=
  match v with
  | JNull => false
  | JBool b => b
  | JNum n => negb (n =? 0)
  | JStr s => negb (String.eqb s EmptyString)
  | JArr l => match l with [] => false | _ => true end
  | JObj l => match l with [] => false | _ => true end
  end.

(** [a or b] *)
Definition py_or (a b : json) : json := if truthy a then a else b.

(** [k in s] for two strings *)
Definition is_substring (k s : string) : bool :=
  match String.index 0 k s with Some _ => true | None => false end.

(** [x == k] for a string [k] *)
Definition eq_str (k : string) (x : json) : bool :=
  match x with JStr s => String.eqb s k | _ => false end.

(** [k in v] for a string [k] *)
Definition py_in (k : string) (v : json) : result bool :=
  match v with
  | JObj l => Ok (key_in k l)
  | JArr l => Ok (existsb (eq_str k) l)
  | JStr s => Ok (is_substring k s)
  | _ => Raise (mk_exn TypeError
                  ("argument of type '" ++ type_name v ++ "' is not iterable"))
  end.

(** [v[k]] for a string [k] *)
Definition py_getitem (v : json) (k : string) : result json :=
  match v with
  | JObj l => match lookup k l with
              | Some x => Ok x
              | None => Raise (mk_exn KeyError ("'" ++ k ++ "'"))
              end
  | JArr _ => Raise (mk_exn TypeError
                       "list indices must be integers or slices, not str")
  | JStr _ => Raise (mk_exn TypeError
                       "string indices must be integers, not 'str'")
  | _ => Raise (mk_exn TypeError
                  ("'" ++ type_name v ++ "' object is not subscriptable"))
  end.

Definition no_attribute (v : json) (a : string) : exn :=
  mk_exn AttributeError
    ("'" ++ type_name v ++ "' object has no attribute '" ++ a ++ "'").

(** [v.get(k, d)] *)
Definition py_get (v : json) (k : string) (d : json) : result json :=
  match v with
  | JObj l => Ok (match lookup k l with Some x => x | None => d end)
  | _ => Raise (no_attribute v "get")
  end.

(** [v[:n]]: only whether it raises matters, the slice is logged and dropped *)
Definition py_slice (v : json) : result unit :=
  match v with
  | JStr _ | JArr _ => Ok tt
  | JObj _ => Raise (mk_exn TypeError "unhashable type: 'slice'")
  | _ => Raise (mk_exn TypeError
                  ("'" ++ type_name v ++ "' object is not subscriptable"))
  end.

(** [len(v)]: again only whether it raises matters *)
Definition py_len (v : json) : result unit :=
  match v with
  | JStr _ | JArr _ | JObj _ => Ok tt
  | _ => Raise (mk_exn TypeError
                  ("object of type '" ++ type_name v ++ "' has no len()"))
  end.

(** [s.rstrip('/')] *)
Fixpoint rstrip_slash (s : string) : string :=
  match s with
  | EmptyString => EmptyString
  | String c s' =>
      match rstrip_slash s' with
      | EmptyString => if Ascii.eqb c "/" then EmptyString
                       else String c EmptyString
      | t => String c t
      end
  end.

Definition py_rstrip_slash (v : json) : result string :=
  match v with
  | JStr s => Ok (rstrip_slash s)
  | _ => Raise (no_attribute v "rstrip")
  end.

(** [str(n)] for an integer *)
Definition str_of_Z (n : Z) : string := NilZero.string_of_int (Z.to_int n).

(** [', '.join(l)] *)
Fixpoint join (sep : string) (l : list string) : string :=
  match l with
  | [] => EmptyString
  | [x] => x
  | x :: l' => x ++ sep ++ join sep l'
  end.

(** ** HTTP data *)

Inductive http_method : Type := GET | POST | PUT | PATCH | DELETE | OPTIONS | HEAD.

Definition method_eqb (a b : http_method) : bool :=
  match a, b with
  | GET, GET | POST, POST | PUT, PUT | PATCH, PATCH
  | DELETE, DELETE | OPTIONS, OPTIONS | HEAD, HEAD => true
  | _, _ => false
  end.

(** The inbound Flask [request]: its method and what [request.get_json()]
    does, which is to return the parsed body or to raise. *)
Record Request : Type := mk_request {
  req_method : http_method;
  req_json : result json
}.

(** One call of [requests.get/post/put/patch/delete]: the keyword arguments
    that were passed.  [call_json] is [None] where no [json=] is passed. *)
Record OutboundCall : Type := mk_call {
  call_method : http_method;
  call_url : string;
  call_headers : list (string * string);
  call_params : option (list (string * json));
  call_json : option json;
  call_timeout : Z
}.

(** The [requests.Response] fields the module reads.  [json_body] is [None]
    when [response.json()] raises. *)
Record Response : Type := mk_response {
  status_code : Z;
  content : string;
  text : string;
  json_body : option json
}.

Inductive body : Type :=
| JsonBody (j : json)
| TextBody (s : string).

(** What a view function returns to Flask. *)
Record ProxyResponse : Type := mk_proxy_response {
  resp_status : Z;
  resp_body : body;
  resp_headers : list (string * string)
}.

(** [jsonify(j), code] *)
Definition jsonify_status (j : json) (code : Z) : ProxyResponse :=
  mk_proxy_response code (JsonBody j) [].

(** [jsonify(j)] *)
Definition jsonify (j : json) : ProxyResponse := jsonify_status j 200.

Definition SALESFORCE_API_VERSION : string := "v58.0".

Definition handle_preflight : ProxyResponse :=
  mk_proxy_response 200 (JsonBody (JObj [("status", JStr "ok")]))
    [("Access-Control-Allow-Origin", "*");
     ("Access-Control-Allow-Headers", "Content-Type,Authorization,X-Requested-With");
     ("Access-Control-Allow-Methods", "GET,POST,PUT,DELETE,OPTIONS,PATCH");
     ("Access-Control-Max-Age", "3600")].

(** [@app.errorhandler(500)] *)
Definition internal_error : ProxyResponse :=
  jsonify_status
    (JObj [("error", JStr "Internal server error");
           ("message", JStr "Please check the server logs for more details")])
    500.

(** [response.json()] *)
Definition response_json (r : Response) : result json :=
  match json_body r with
  | Some j => Ok j
  | None => Raise (mk_exn JSONDecodeError
                     "Expecting value: line 1 column 1 (char 0)")
  end.

(** The chain [k1 not in data or k2 not in data or ...], left to right. *)
Fixpoint any_missing (data : json) (ks : list string) : result bool :=
  match ks with
  | [] => Ok false
  | k :: ks' =>
      match py_in k data with
      | Raise e => Raise e
      | Ok false => Ok true
      | Ok true => any_missing data ks'
      end
  end.

(** [not data or k1 not in data or ...] *)
Definition missing_required (data : json) (ks : list string) : result bool :=
  if truthy data then any_missing data ks else Ok true.

(** ** The monad of a view function

    State: the outbound calls made so far, oldest first.  A computation
    returns a value or raises. *)

Definition M (A : Type) : Type :=
  list OutboundCall -> result A * list OutboundCall.

Definition ret {A} (a : A) : M A := fun tr => (Ok a, tr).

Definition raise {A} (e : exn) : M A := fun tr => (Raise e, tr).

Definition lift {A} (r : result A) : M A := fun tr => (r, tr).

Definition bind {A B} (m : M A) (f : A -> M B) : M B :=
  fun tr =>
    match m tr with
    | (Ok a, tr') => f a tr'
    | (Raise e, tr') => (Raise e, tr')
    end.

(** [try: m  except ... as e: h e]; a handler re-raises what no clause takes *)
Definition try_except {A} (m : M A) (h : exn -> M A) : M A :=
  fun tr =>
    match m tr with
    | (Ok a, tr') => (Ok a, tr')
    | (Raise e, tr') => h e tr'
    end.

Notation "x <- m ;; k" := (bind m (fun x => k))
  (at level 61, m at next level, right associativity).
Notation "' pat <- m ;; k" := (bind m (fun x => match x with pat => k end))
  (at level 61, pat pattern, m at next level, right associativity).

(** ** A concrete runtime, to run the model on examples *)

(** [str.upper] on ASCII letters. *)
Definition ascii_upper_char (c : ascii) : ascii :=
  let n := nat_of_ascii c in
  if ((97 <=? n) && (n <=? 122))%nat then ascii_of_nat (n - 32) else c.

Fixpoint ascii_upper (s : string) : string :=
  match s with
  | EmptyString => EmptyString
  | String c s' => String (ascii_upper_char c) (ascii_upper s')
  end.

(** [repr] of a value whose strings need no escaping. *)
Fixpoint repr (v : json) : string :=
  match v with
  | JNull => "None"
  | JBool true => "True"
  | JBool false => "False"
  | JNum n => str_of_Z n
  | JStr s => "'" ++ s ++ "'"
  | JArr l => "[" ++ join ", " (map repr l) ++ "]"
  | JObj l =>
      "{" ++ join ", " (map (fun '(k, x) => "'" ++ k ++ "': " ++ repr x) l) ++ "}"
  end.

(** An upstream that answers every call with [r], and one that raises [e]. *)
Definition answering (r : Response) : OutboundCall -> result Response :=
  fun _ => Ok r.

Definition failing (e : exn) : OutboundCall -> result Response :=
  fun _ => Raise e.

(** Example traffic. *)
Definition query_payload : json :=
  JObj [("query", JStr "SELECT Id FROM Account");
        ("instanceUrl", JStr "https://x.my.salesforce.com");
        ("sessionId", JStr "abc123")].

Definition record_payload : json :=
  JObj [("instanceUrl", JStr "https://x.my.salesforce.com");
        ("sessionId", JStr "abc123")].

Definition create_payload : json :=
  JObj [("instanceUrl", JStr "https://x.my.salesforce.com");
        ("sessionId", JStr "abc123");
        ("recordData", JObj [("Name", JStr "Acme")])].

Definition proxy_payload (instance_url : json) (method : string) : json :=
  JObj [("instance_url", instance_url);
        ("endpoint", JStr "/services/data/v58.0/limits");
        ("auth_token", JStr "abc123");
        ("method", JStr method)].

Definition created_201 : Response :=
  mk_response 201 "{'id': '001'}" "{'id': '001'}"
    (Some (JObj [("id", JStr "001")])).

Definition records_200 : Response :=
  mk_response 200 "{'totalSize': 1}" "{'totalSize': 1}"
    (Some (JObj [("totalSize", JNum 1);
                 ("records", JArr [JObj [("Id", JStr "001")]])])).

Definition malformed_400 : Response :=
  mk_response 400 "[]" "[]" (Some (JArr [])).

Definition no_content_204 : Response :=
  mk_response 204 EmptyString EmptyString None.

Definition proxy_blocked : exn :=
  mk_exn ProxyError "Cannot connect to proxy.".

Definition read_timed_out : exn :=
  mk_exn ReadTimeout "Read timed out. (read timeout=30)".

(** ** The view functions *)

Section Forwarder.

(** The network: what [requests] does with a call. *)
Variable send : OutboundCall -> result Response.

(** [str(v)] of a list or a dict (Python's [repr] of the nested values). *)
Variable py_repr : json -> string.

(** [s.upper()] *)
Variable str_upper : string -> string.

(** [f"{v}"] *)
Definition py_str (v : json) : string :=
  match v with
  | JStr s => s
  | JNull => "None"
  | JBool true => "True"
  | JBool false => "False"
  | JNum n => str_of_Z n
  | _ => py_repr v
  end.

(** [v.upper()] *)
Definition py_upper (v : json) : result string :=
  match v with
  | JStr s => Ok (str_upper s)
  | _ => Raise (no_attribute v "upper")
  end.

(** [requests.<method>(url, headers=..., params=..., json=..., timeout=30)]:
    the call is recorded, then the network answers or raises. *)
Definition requests (m : http_method) (url : string)
    (headers : list (string * string))
    (params : option (list (string * json))) (js : option json) : M Response :=
  fun tr =>
    let c := mk_call m url headers params js 30 in
    (send c, (tr ++ [c])%list).

(** The [headers] dict every view function builds from its credential. *)
Definition bearer_headers (credential : json) : list (string * string) :=
  [("Authorization", "Bearer " ++ py_str credential);
   ("Content-Type", "application/json");
   ("Accept", "application/json")].

(** The [else] branch shared by the four record-style routes. *)
Definition salesforce_error (response : Response) : ProxyResponse :=
  jsonify_status
    (JObj [("error", JStr ("Salesforce API error: "
                             ++ str_of_Z (status_code response)));
           ("details", JStr (text response))])
    (status_code response).

(** The inner [try] of [proxy_query] and [proxy_describe]: the response, or
    the reply its [except] clauses return. *)
Definition guarded_get (url : string) (headers : list (string * string))
    (params : option (list (string * json))) : M (Response + ProxyResponse) :=
  try_except
    (response <- requests GET url headers params None ;; ret (inl response))
    (fun e =>
       if is_ProxyError e then
         ret (inr (jsonify_status
           (JObj [("error", JStr "External API access restricted");
                  ("message", JStr "PythonAnywhere free tier doesn't allow external HTTPS requests to Salesforce. You need to upgrade to a paid plan.");
                  ("details", JStr (exn_str e));
                  ("solution", JStr "Upgrade to PythonAnywhere Hacker plan ($5/month) to enable external API calls")])
           403))
       else if is_RequestException e then
         ret (inr (jsonify_status
           (JObj [("error", JStr "Network error");
                  ("message", JStr (exn_str e));
                  ("type", JStr (class_name (exn_cls e)))])
           500))
       else raise e).

(** The three outer [except] clauses of the record-style routes. *)
Definition record_style_except (e : exn) : M ProxyResponse :=
  if is_Timeout e then
    ret (jsonify_status (JObj [("error", JStr "Request timeout")]) 504)
  else if is_RequestException e then
    ret (jsonify_status
           (JObj [("error", JStr ("Request error: " ++ exn_str e))]) 500)
  else
    ret (jsonify_status
           (JObj [("error", JStr ("Internal server error: " ++ exn_str e))]) 500).

Definition proxy_query (rq : Request) : M ProxyResponse :=
  if method_eqb (req_method rq) OPTIONS then ret handle_preflight else
  try_except
    (data <- lift (req_json rq) ;;
     missing <- lift (missing_required data ["query"; "instanceUrl"; "sessionId"]) ;;
     if (missing : bool) then
       ret (jsonify_status
              (JObj [("error", JStr "Missing required fields: query, instanceUrl, sessionId")])
              400)
     else
       query <- lift (py_getitem data "query") ;;
       instance_url <- lift (py_getitem data "instanceUrl") ;;
       session_id <- lift (py_getitem data "sessionId") ;;
       let sf_url := py_str instance_url ++ "/services/data/"
                       ++ SALESFORCE_API_VERSION ++ "/query/" in
       let headers := bearer_headers session_id in
       let params := [("q", query)] in
       _ <- lift (py_slice query) ;;
       _ <- lift (py_slice session_id) ;;
       r <- guarded_get sf_url headers (Some params) ;;
       match r with
       | inr early => ret early
       | inl response =>
           if status_code response =? 200 then
             result <- lift (response_json response) ;;
             _ <- lift (py_get result "totalSize" (JNum 0)) ;;
             ret (jsonify result)
           else ret (salesforce_error response)
       end)
    record_style_except.

Definition proxy_describe (object_name : string) (rq : Request)
    : M ProxyResponse :=
  if method_eqb (req_method rq) OPTIONS then ret handle_preflight else
  try_except
    (data <- lift (req_json rq) ;;
     missing <- lift (missing_required data ["instanceUrl"; "sessionId"]) ;;
     if (missing : bool) then
       ret (jsonify_status
              (JObj [("error", JStr "Missing required fields: instanceUrl, sessionId")])
              400)
     else
       instance_url <- lift (py_getitem data "instanceUrl") ;;
       session_id <- lift (py_getitem data "sessionId") ;;
       let sf_url := py_str instance_url ++ "/services/data/"
                       ++ SALESFORCE_API_VERSION ++ "/sobjects/"
                       ++ object_name ++ "/describe/" in
       let headers := bearer_headers session_id in
       r <- guarded_get sf_url headers None ;;
       match r with
       | inr early => ret early
       | inl response =>
           if status_code response =? 200 then
             result <- lift (response_json response) ;;
             fields <- lift (py_get result "fields" (JArr [])) ;;
             _ <- lift (py_len fields) ;;
             ret (jsonify result)
           else ret (salesforce_error response)
       end)
    record_style_except.

Definition proxy_create_record (object_name : string) (rq : Request)
    : M ProxyResponse :=
  if method_eqb (req_method rq) OPTIONS then ret handle_preflight else
  try_except
    (data <- lift (req_json rq) ;;
     missing <- lift (missing_required data
                        ["instanceUrl"; "sessionId"; "recordData"]) ;;
     if (missing : bool) then
       ret (jsonify_status
              (JObj [("error", JStr "Missing required fields: instanceUrl, sessionId, recordData")])
              400)
     else
       instance_url <- lift (py_getitem data "instanceUrl") ;;
       session_id <- lift (py_getitem data "sessionId") ;;
       record_data <- lift (py_getitem data "recordData") ;;
       let sf_url := py_str instance_url ++ "/services/data/"
                       ++ SALESFORCE_API_VERSION ++ "/sobjects/"
                       ++ object_name ++ "/" in
       let headers := bearer_headers session_id in
       response <- requests POST sf_url headers None (Some record_data) ;;
       if (status_code response =? 200) || (status_code response =? 201) then
         result <- lift (response_json response) ;;
         _ <- lift (py_get result "id" JNull) ;;
         ret (jsonify result)
       else ret (salesforce_error response))
    record_style_except.

Definition proxy_record_operations (object_name record_id : string)
    (rq : Request) : M ProxyResponse :=
  if method_eqb (req_method rq) OPTIONS then ret handle_preflight else
  try_except
    (data0 <- lift (req_json rq) ;;
     let data := py_or data0 (JObj []) in
     missing <- lift (any_missing data ["instanceUrl"; "sessionId"]) ;;
     if (missing : bool) then
       ret (jsonify_status
              (JObj [("error", JStr "Missing required fields: instanceUrl, sessionId")])
              400)
     else
       instance_url <- lift (py_getitem data "instanceUrl") ;;
       session_id <- lift (py_getitem data "sessionId") ;;
       let sf_url := py_str instance_url ++ "/services/data/"
                       ++ SALESFORCE_API_VERSION ++ "/sobjects/"
                       ++ object_name ++ "/" ++ record_id in
       let headers := bearer_headers session_id in
       response <-
         match req_method rq with
         | GET => requests GET sf_url headers None None
         | PATCH =>
             record_data <- lift (py_get data "recordData" (JObj [])) ;;
             requests PATCH sf_url headers None (Some record_data)
         | DELETE => requests DELETE sf_url headers None None
         | _ => raise (mk_exn UnboundLocalError
                         "cannot access local variable 'response' where it is not associated with a value")
         end ;;
       if (status_code response =? 200) || (status_code response =? 204) then
         if negb (String.eqb (content response) EmptyString) then
           result <- lift (response_json response) ;;
           ret (jsonify result)
         else ret (jsonify (JObj [("success", JBool true)]))
       else ret (salesforce_error response))
    record_style_except.

Definition required_fields : list string :=
  ["instance_url"; "endpoint"; "auth_token"].

Definition general_proxy (rq : Request) : M ProxyResponse :=
  if method_eqb (req_method rq) OPTIONS then ret handle_preflight else
  try_except
    (data <- lift (req_json rq) ;;
     missing <- lift (missing_required data required_fields) ;;
     if (missing : bool) then
       ret (jsonify_status
              (JObj [("error", JStr ("Missing required fields: "
                                       ++ join ", " required_fields))])
              400)
     else
       instance_url <- lift (py_getitem data "instance_url") ;;
       endpoint <- lift (py_getitem data "endpoint") ;;
       auth_token <- lift (py_getitem data "auth_token") ;;
       method0 <- lift (py_get data "method" (JStr "GET")) ;;
       method <- lift (py_upper method0) ;;
       body <- lift (py_get data "body" JNull) ;;
       let headers := bearer_headers auth_token in
       base <- lift (py_rstrip_slash instance_url) ;;
       let url := base ++ py_str endpoint in
       r <- (if String.eqb method "GET" then
               response <- requests GET url headers None None ;;
               ret (inl response)
             else if String.eqb method "POST" then
               response <- requests POST url headers None (Some body) ;;
               ret (inl response)
             else if String.eqb method "PUT" then
               response <- requests PUT url headers None (Some body) ;;
               ret (inl response)
             else if String.eqb method "DELETE" then
               response <- requests DELETE url headers None None ;;
               ret (inl response)
             else
               ret (inr (jsonify_status
                 (JObj [("error", JStr ("Unsupported HTTP method: " ++ method))])
                 400))) ;;
       match r with
       | inr early => ret early
       | inl response =>
           if (status_code response =? 200) || (status_code response =? 201) then
             try_except
               (result <- lift (response_json response) ;;
                ret (jsonify result))
               (fun e =>
                  if is_ValueError e then
                    ret (mk_proxy_response 200 (TextBody (text response)) [])
                  else raise e)
           else
             try_except
               (error_data <- lift (response_json response) ;;
                ret (jsonify_status
                       (JObj [("error", JStr "Salesforce API error");
                              ("status_code", JNum (status_code response));
                              ("details", error_data)])
                       (status_code response)))
               (fun e =>
                  if is_ValueError e then
                    ret (jsonify_status
                           (JObj [("error", JStr "Salesforce API error");
                                  ("status_code", JNum (status_code response));
                                  ("message", JStr (text response))])
                           (status_code response))
                  else raise e)
       end)
    (fun e =>
       if is_Timeout e then
         ret (jsonify_status (JObj [("error", JStr "Request timeout")]) 408)
       else if is_RequestException e then
         ret (jsonify_status
                (JObj [("error", JStr ("Request failed: " ++ exn_str e))]) 500)
       else
         ret (jsonify_status
                (JObj [("error", JStr ("Unexpected error: " ++ exn_str e))]) 500)).

(** ** The five operations and the application *)

Inductive operation : Type :=
| Query
| Describe (object_name : string)
| CreateRecord (object_name : string)
| RecordOperations (object_name record_id : string)
| GeneralProxy.

Definition view (op : operation) : Request -> M ProxyResponse :=
  match op with
  | Query => proxy_query
  | Describe o => proxy_describe o
  | CreateRecord o => proxy_create_record o
  | RecordOperations o i => proxy_record_operations o i
  | GeneralProxy => general_proxy
  end.

(** Flask runs the view on a fresh request; an exception that leaves the view
    goes to the 500 error handler.  The result is the reply and the outbound
    calls made for this request. *)
Definition serve (op : operation) (rq : Request)
    : ProxyResponse * list OutboundCall :=
  match view op rq [] with
  | (Ok r, tr) => (r, tr)
  | (Raise _, tr) => (internal_error, tr)
  end.


(** ** Vocabulary of the specification *)

Definition is_object (v : json) : bool :=
  match v with JObj _ => true | _ => false end.

(** The payload is an object with a member [k]. *)
Definition has_field (k : string) (payload : json) : bool :=
  match payload with JObj l => key_in k l | _ => false end.

(** The names each view tests in its validation. *)
Definition op_required_fields (op : operation) : list string :=
  match op with
  | Query => ["query"; "instanceUrl"; "sessionId"]
  | Describe _ => ["instanceUrl"; "sessionId"]
  | CreateRecord _ => ["instanceUrl"; "sessionId"; "recordData"]
  | RecordOperations _ _ => ["instanceUrl"; "sessionId"]
  | GeneralProxy => required_fields
  end.

(** The 400 reply that names the required fields of [op]. *)
Definition missing_fields_error (op : operation) : ProxyResponse :=
  jsonify_status
    (JObj [("error", JStr ("Missing required fields: "
                             ++ join ", " (op_required_fields op)))])
    400.

(** The field of the payload that holds the bearer credential. *)
Definition credential_field (op : operation) : string :=
  match op with
  | GeneralProxy => "auth_token"
  | _ => "sessionId"
  end.

(** The upstream statuses on which each view takes its success branch. *)
Definition success_status (op : operation) (s : Z) : bool :=
  match op with
  | Query | Describe _ => s =? 200
  | CreateRecord _ | GeneralProxy => (s =? 200) || (s =? 201)
  | RecordOperations _ _ => (s =? 200) || (s =? 204)
  end.

(** What the success branch of each view needs of the parsed body in order to
    write its log line: an object where [.get] is called on it, and for
    describe a [fields] member that has a length. *)
Definition loggable (op : operation) (j : json) : bool :=
  match op, j with
  | (Query | CreateRecord _), JObj _ => true
  | Describe _, JObj m =>
      match lookup "fields" m with
      | Some (JStr _ | JArr _ | JObj _) | None => true
      | Some _ => false
      end
  | (RecordOperations _ _ | GeneralProxy), _ => true
  | _, _ => false
  end.

(** A value is one of the members of a JSON object reply. *)
Definition includes (b : body) (v : json) : Prop :=
  match b with
  | JsonBody (JObj m) => In v (map snd m)
  | _ => False
  end.

(** The reply is a JSON object with a member [k]. *)
Definition has_key (b : body) (k : string) : bool :=
  match b with
  | JsonBody (JObj m) => key_in k m
  | _ => false
  end.

(** The upstream body as the claim describes it: parsed if it parses. *)
Definition parsed_or_text (r : Response) : json :=
  match json_body r with Some j => j | None => JStr (text r) end.

(** The upstream error details each route echoes. *)
Definition error_details (op : operation) (r : Response) : json :=
  match op with
  | GeneralProxy => parsed_or_text r
  | _ => JStr (text r)
  end.

(** The key under which each route echoes them: "details" on the four
    record-style routes; on the generic route "details" for a body that
    parses and "message" for raw text. *)
Definition details_key (op : operation) (r : Response) : string :=
  match op with
  | GeneralProxy =>
      match json_body r with Some _ => "details" | None => "message" end
  | _ => "details"
  end.


(** The error shape of [general_proxy] for upstream status [s]. *)
Definition generic_error_shape (reply : ProxyResponse) (s : Z) : Prop :=
  resp_status reply = s /\
  exists m, resp_body reply = JsonBody (JObj m) /\
            lookup "error" m = Some (JStr "Salesforce API error") /\
            lookup "status_code" m = Some (JNum s).

(** The [{"success": true}] sentinel. *)
Definition success_sentinel : json := JObj [("success", JBool true)].

(** The method [general_proxy] dispatches on. *)
Definition dispatch_method (m : string) : option http_method :=
  if String.eqb m "GET" then Some GET
  else if String.eqb m "POST" then Some POST
  else if String.eqb m "PUT" then Some PUT
  else if String.eqb m "DELETE" then Some DELETE
  else None.

(** ** Vocabulary of the further properties *)

(** The path each record-style route appends to
    [<instanceUrl>/services/data/<version>]. *)
Definition route_path (op : operation) : string :=
  match op with
  | Query => "/query/"
  | Describe o => "/sobjects/" ++ o ++ "/describe/"
  | CreateRecord o => "/sobjects/" ++ o ++ "/"
  | RecordOperations o i => "/sobjects/" ++ o ++ "/" ++ i
  | GeneralProxy => EmptyString
  end.

(** The values [v[:n]] accepts among JSON values: strings and arrays. *)
Definition sliceable (v : json) : bool :=
  match v with JStr _ | JArr _ => true | _ => false end.

Definition is_string (v : json) : bool :=
  match v with JStr _ => true | _ => false end.

(** [n] slashes. *)
Fixpoint slashes (n : nat) : string :=
  match n with
  | O => EmptyString
  | S n' => String "/" (slashes n')
  end.

(** [s.endswith('/')] *)
Fixpoint ends_with_slash (s : string) : bool :=
  match s with
  | EmptyString => false
  | String c EmptyString => Ascii.eqb c "/"
  | String _ s' => ends_with_slash s'
  end.

(** The text the last [except] clauses of a view put before [str(e)]:
    first for a [RequestException], then for any other exception. *)
Definition request_error_prefix (op : operation) : string :=
  match op with
  | GeneralProxy => "Request failed: "
  | _ => "Request error: "
  end.

Definition catch_all_prefix (op : operation) : string :=
  match op with
  | GeneralProxy => "Unexpected error: "
  | _ => "Internal server error: "
  end.

(** The status a view answers when its [except Timeout] clause runs. *)
Definition timeout_status (op : operation) : Z :=
  match op with
  | GeneralProxy => 408
  | _ => 504
  end.

(** A reply whose body is [{"error": msg}]. *)
Definition error_reply (msg : string) (code : Z) : ProxyResponse :=
  jsonify_status (JObj [("error", JStr msg)]) code.

(** The routes whose outbound call sits in an inner [try]. *)
Definition guarded (op : operation) : bool :=
  match op with
  | Query | Describe _ => true
  | _ => false
  end.

(** The methods [proxy_record_operations] forwards. *)
Definition record_method (m : http_method) : bool :=
  match m with
  | GET | PATCH | DELETE => true
  | _ => false
  end.

(** More example traffic. *)
Definition bearer_abc123 : list (string * string) :=
  [("Authorization", "Bearer abc123");
   ("Content-Type", "application/json");
   ("Accept", "application/json")].

Definition query_call : OutboundCall :=
  mk_call GET "https://x.my.salesforce.com/services/data/v58.0/query/"
    bearer_abc123 (Some [("q", JStr "SELECT Id FROM Account")]) None 30.

Definition create_call : OutboundCall :=
  mk_call POST
    "https://x.my.salesforce.com/services/data/v58.0/sobjects/Account/"
    bearer_abc123 None (Some (JObj [("Name", JStr "Acme")])) 30.

Definition patch_call : OutboundCall :=
  mk_call PATCH
    "https://x.my.salesforce.com/services/data/v58.0/sobjects/Account/001"
    bearer_abc123 None (Some (JObj [])) 30.

Definition limits_call (m : http_method) (js : option json) : OutboundCall :=
  mk_call m "https://x.my.salesforce.com/services/data/v58.0/limits"
    bearer_abc123 None js 30.

Definition array_200 : Response :=
  mk_response 200 "[]" "[]" (Some (JArr [])).

Definition bad_request : exn :=
  mk_exn BadRequest "400 Bad Request: Failed to decode JSON object".

(** ** Validation *)

Lemma any_missing_object (l : list (string * json)) (ks : list string) :
  any_missing (JObj l) ks = Ok (negb (forallb (fun k => key_in k l) ks)).
Proof.
  induction ks as [|k ks IH]; simpl.
  - reflexivity.
  - destruct (key_in k l); simpl; [exact IH | reflexivity].
Qed.

Lemma any_missing_absent (l : list (string * json)) (ks : list string) (k : string) :
  In k ks -> key_in k l = false -> any_missing (JObj l) ks = Ok true.
Proof.
  intros Hin Hk. rewrite any_missing_object. f_equal.
  apply negb_true_iff, not_true_is_false. intros Hall.
  rewrite forallb_forall in Hall. specialize (Hall k Hin). congruence.
Qed.

Lemma missing_required_absent (payload : json) (ks : list string) (k : string) :
  is_object payload = true \/ truthy payload = false ->
  In k ks -> has_field k payload = false ->
  missing_required payload ks = Ok true.
Proof.
  intros Hshape Hin Hk. unfold missing_required.
  destruct (truthy payload) eqn:Ht; [|reflexivity].
  destruct Hshape as [Hobj|Hf]; [|discriminate].
  destruct payload; try discriminate. simpl in Hk.
  now apply any_missing_absent with k.
Qed.

Lemma any_missing_or_empty (payload : json) (ks : list string) (k : string) :
  is_object payload = true \/ truthy payload = false ->
  In k ks -> has_field k payload = false ->
  any_missing (py_or payload (JObj [])) ks = Ok true.
Proof.
  intros Hshape Hin Hk. unfold py_or.
  destruct (truthy payload) eqn:Ht.
  - destruct Hshape as [Hobj|Hf]; [|discriminate].
    destruct payload; try discriminate. simpl in Hk.
    now apply any_missing_absent with k.
  - now apply any_missing_absent with k.
Qed.

Lemma not_options (m : http_method) :
  m <> OPTIONS -> method_eqb m OPTIONS = false.
Proof. destruct m; intros H; try reflexivity. now destruct H. Qed.

(** C1, as amended.  For every operation and every inbound payload that is a
    JSON object, or is empty (null, false, 0, an empty string, array or
    object), and from which one of the operation's required fields is absent,
    the reply is status 400 with the body
    [{"error": "Missing required fields: <the operation's fields>"}], and no
    outbound call is made. *)
Theorem missing_field_rejected (op : operation) (rq : Request)
    (payload : json) (k : string) :
  req_method rq <> OPTIONS ->
  req_json rq = Ok payload ->
  is_object payload = true \/ truthy payload = false ->
  In k (op_required_fields op) ->
  has_field k payload = false ->
  serve op rq = (missing_fields_error op, []).
Proof.
  intros Hm Hj Hshape Hin Hk.
  apply not_options in Hm.
  unfold serve, view.
  destruct op; unfold op_required_fields in Hin;
    [ unfold proxy_query | unfold proxy_describe | unfold proxy_create_record
    | unfold proxy_record_operations | unfold general_proxy ];
    rewrite Hm; unfold try_except, bind, lift; rewrite Hj;
    first [ rewrite (missing_required_absent payload _ k Hshape Hin Hk)
          | rewrite (any_missing_or_empty payload _ k Hshape Hin Hk) ];
    reflexivity.
Qed.


(** ** Running a view: the outbound call and the reply *)

Ltac unfold_views :=
  unfold serve, view, proxy_query, proxy_describe, proxy_create_record,
    proxy_record_operations, general_proxy, guarded_get, requests,
    record_style_except, response_json, try_except, bind, lift, ret, raise
    in *.

(** Run the view along every branch its hypotheses leave open. *)
Ltac exec :=
  repeat (simpl in *;
    match goal with
    | H : (_, _) = (_, _) |- _ => inversion H; clear H; subst
    | H : [] = _ :: _ |- _ => discriminate H
    | H : Ok _ = Ok _ |- _ => inversion H; clear H; subst
    | H : Ok _ = Raise _ |- _ => discriminate H
    | H : Raise _ = Ok _ |- _ => discriminate H
    | H : context [match ?x with _ => _ end] |- _ =>
        match x with
        | context [match _ with _ => _ end] => fail 1
        | _ => destruct x eqn:?
        end
    end); simpl in *.

(** The same, on the goal. *)
Ltac exec_goal :=
  repeat (simpl;
    match goal with
    | |- context [match ?x with _ => _ end] =>
        match x with
        | context [match _ with _ => _ end] => fail 1
        | _ => destruct x eqn:?
        end
    end).

(** The call in the trace is the call the network answered. *)
Ltac same_call :=
  repeat match goal with
  | H : [_] = [_] |- _ => injection H as H; subst
  | H1 : send ?c = _, H2 : send ?c = _ |- _ =>
      rewrite H1 in H2; inversion H2; subst; clear H2
  end.

Ltac arith :=
  repeat match goal with
  | H : (_ || _) = true |- _ => apply orb_true_iff in H; destruct H
  | H : (_ || _) = false |- _ => apply orb_false_iff in H; destruct H
  | H : (_ =? _) = true |- _ => apply Z.eqb_eq in H
  | H : (_ =? _) = false |- _ => apply Z.eqb_neq in H
  | H : negb (String.eqb _ _) = false |- _ =>
      apply negb_false_iff, String.eqb_eq in H
  | H : negb (String.eqb _ _) = true |- _ =>
      apply negb_true_iff, String.eqb_neq in H
  end.

Ltac run_view :=
  unfold_views; exec; try discriminate; same_call; try discriminate; arith;
  try lia.

Lemma py_getitem_Ok (v : json) (k : string) (x : json) :
  py_getitem v k = Ok x -> exists l, v = JObj l /\ lookup k l = Some x.
Proof.
  destruct v; simpl; try discriminate.
  destruct (lookup k members) eqn:E; try discriminate.
  intros H. inversion H. subst. now exists members.
Qed.

Lemma py_or_object (v : json) (l : list (string * json)) :
  py_or v (JObj []) = JObj l -> l <> [] -> v = JObj l.
Proof.
  unfold py_or. destruct (truthy v); intros H Hl; [assumption|].
  inversion H. subst. now destruct Hl.
Qed.

Lemma lookup_nonempty (k : string) (l : list (string * json)) (x : json) :
  lookup k l = Some x -> l <> [].
Proof. destruct l; [discriminate | discriminate]. Qed.

(** C3, as amended.  For every operation and every upstream response with a
    non-2xx status, the reply has the upstream status and its body is a JSON
    object that carries the upstream body: on the four record-style routes
    always as raw text, under "details"; on the generic proxy route as parsed
    JSON under "details" if it parses, as raw text under "message"
    otherwise. *)
Theorem upstream_error_echoed (op : operation) (rq : Request)
    (c : OutboundCall) (resp : Response) :
  snd (serve op rq) = [c] -> send c = Ok resp ->
  status_code resp < 200 \/ 300 <= status_code resp ->
  resp_status (fst (serve op rq)) = status_code resp /\
  exists m,
    resp_body (fst (serve op rq)) = JsonBody (JObj m) /\
    lookup (details_key op resp) m = Some (error_details op resp).
Proof.
  intros H Hs Hn. destruct op; run_view.
  all: unfold details_key, error_details, parsed_or_text;
    repeat match goal with E : json_body _ = _ |- _ => rewrite E; clear E end.
  all: split; [reflexivity|]; eexists; split; reflexivity.
Qed.

(** C2, as amended.  For every operation and every upstream response with a
    non-empty body that parses as JSON: if the status is one of the
    operation's success statuses (200 on query and describe; 200 or 201 on
    create record and generic proxy; 200 or 204 on record get/update/delete)
    and the parsed body is a JSON object on the query, describe and create
    routes (on describe with a fields member, if any, that is a string, array
    or object), the reply is status 200 with that JSON body verbatim; an
    upstream 201 on the query, describe and record get/update/delete routes
    is answered with status 201 and the error body of the route. *)
Theorem success_passthrough (op : operation) (rq : Request)
    (c : OutboundCall) (resp : Response) (j : json) :
  snd (serve op rq) = [c] -> send c = Ok resp ->
  content resp <> EmptyString -> json_body resp = Some j ->
  (success_status op (status_code resp) = true -> loggable op j = true ->
   fst (serve op rq) = jsonify j) /\
  (status_code resp = 201 -> success_status op 201 = false ->
   fst (serve op rq) = salesforce_error resp).
Proof.
  intros H Hs Hc Hj. destruct op; run_view.
  all: repeat match goal with
       | E : json_body _ = _, E' : json_body _ = _ |- _ =>
           rewrite E in E'; inversion E'; subst; clear E'
       end.
  all: try contradiction.
  all: split; intros; simpl in *; arith; try discriminate; try lia;
    try reflexivity.
  all: destruct j; try discriminate; simpl in *; exec; try discriminate.
Qed.



(** C7, as amended.  For every PATCH request to
    /api/sobjects/<object_name>/<record_id> whose payload is a JSON object
    that contains instanceUrl and sessionId but lacks recordData, validation
    passes: exactly one outbound PATCH call is made, to the record's URL,
    with the empty JSON object as its body (recordData is optional for the
    update operation and defaults to the empty object). *)
Theorem update_defaults_record_data (object_name record_id : string)
    (rq : Request) (l : list (string * json)) (u sid : json) :
  req_method rq = PATCH ->
  req_json rq = Ok (JObj l) ->
  lookup "instanceUrl" l = Some u ->
  lookup "sessionId" l = Some sid ->
  lookup "recordData" l = None ->
  snd (serve (RecordOperations object_name record_id) rq)
  = [mk_call PATCH
       (py_str u ++ "/services/data/" ++ SALESFORCE_API_VERSION
          ++ "/sobjects/" ++ object_name ++ "/" ++ record_id)
       (bearer_headers sid) None (Some (JObj [])) 30].
Proof.
  intros Hm Hj Hu Hsid Hrec.
  assert (Hor : py_or (JObj l) (JObj []) = JObj l)
    by (destruct l; [discriminate Hu | reflexivity]).
  assert (Hmiss : any_missing (JObj l) ["instanceUrl"; "sessionId"] = Ok false).
  { rewrite any_missing_object. simpl. unfold key_in. now rewrite Hu, Hsid. }
  unfold_views. rewrite Hm, Hj, Hor, Hmiss. unfold py_getitem, py_get.
  rewrite Hu, Hsid, Hrec. exec_goal; reflexivity.
Qed.

(** C8.  Every outbound call made while serving a request, whatever the
    operation, carries the three headers
    Authorization: Bearer <credential>, Content-Type: application/json and
    Accept: application/json, where the credential is the sessionId
    (auth_token on the generic route) of the payload of that same request,
    rendered as text, which for a string is the string itself.  Serving
    starts from nothing but the request: no credential is kept from one
    request to the next. *)
Theorem bearer_from_request (op : operation) (rq : Request) (c : OutboundCall) :
  In c (snd (serve op rq)) ->
  exists (l : list (string * json)) (cred : json),
    req_json rq = Ok (JObj l) /\
    lookup (credential_field op) l = Some cred /\
    call_headers c = [("Authorization", "Bearer " ++ py_str cred);
                      ("Content-Type", "application/json");
                      ("Accept", "application/json")] /\
    (forall s, cred = JStr s -> py_str cred = s).
Proof.
  intros H. destruct op; run_view.
  all: try contradiction.
  all: repeat match goal with
       | E : py_getitem _ _ = Ok _ |- _ => apply py_getitem_Ok in E;
           destruct E as (? & ? & ?)
       end.
  all: repeat match goal with
       | E : py_or ?a (JObj []) = JObj ?m, E' : lookup _ ?m = Some _ |- _ =>
           apply py_or_object in E; [subst a | exact (lookup_nonempty _ _ _ E')]
       end.
  all: subst;
       repeat match goal with
       | E : JObj _ = JObj _ |- _ => inversion E; clear E; subst
       end.
  all: destruct H as [<-|[]]; simpl.
  all: eexists; eexists; split; [reflexivity|];
       split; [eassumption|]; split; [reflexivity|].
  all: intros s ->; reflexivity.
Qed.


(** C9, as amended.  For every POST to /api/proxy whose payload is a JSON
    object that passes field validation, with a string instance_url and a
    method field that is a string (GET when the field is absent): the method
    is upper-cased before dispatch; if the upper-cased method is one of GET,
    POST, PUT, DELETE exactly one outbound call with that method is made, and
    otherwise (PATCH, for example) the reply is status 400 with body
    [{"error": "Unsupported HTTP method: <METHOD>"}] and no outbound call is
    made. *)
Theorem unsupported_method_rejected (rq : Request)
    (l : list (string * json)) (u m : string) :
  req_method rq = POST ->
  req_json rq = Ok (JObj l) ->
  missing_required (JObj l) required_fields = Ok false ->
  lookup "instance_url" l = Some (JStr u) ->
  py_get (JObj l) "method" (JStr "GET") = Ok (JStr m) ->
  match dispatch_method (str_upper m) with
  | Some hm =>
      exists c, snd (serve GeneralProxy rq) = [c] /\ call_method c = hm
  | None =>
      serve GeneralProxy rq
      = (jsonify_status
           (JObj [("error", JStr ("Unsupported HTTP method: " ++ str_upper m))])
           400, [])
  end.
Proof.
  intros Hm Hj Hv Hu Hmeth.
  assert (Hall : forallb (fun k => key_in k l) required_fields = true).
  { unfold missing_required in Hv. destruct (truthy (JObj l)); [|discriminate].
    rewrite any_missing_object in Hv. inversion Hv as [Hn].
    now apply negb_false_iff in Hn. }
  simpl in Hall. unfold key_in in Hall.
  destruct (lookup "endpoint" l) as [endpoint|] eqn:He;
    [|now rewrite Hu in Hall].
  destruct (lookup "auth_token" l) as [auth_token|] eqn:Ht;
    [|now rewrite Hu in Hall].
  clear Hall. unfold dispatch_method.
  unfold serve, view, general_proxy, requests, response_json, try_except,
    bind, lift, ret, raise.
  rewrite Hm, Hj, Hv. unfold py_getitem. rewrite Hu, He, Ht, Hmeth.
  exec_goal; first [reflexivity | eexists; split; reflexivity].
Qed.

(** C10.  On the generic /api/proxy route an upstream response with status
    204 is not treated as success: the reply has status 204 and an
    error-shaped JSON body with "error": "Salesforce API error" and
    "status_code": 204, never the [{"success": true}] sentinel.  Only the
    upstream statuses 200 and 201 take the success path (the parsed body, or
    the raw text, with status 200); every other status gets the error shape
    with the upstream status. *)
Theorem generic_204_is_error (rq : Request) (c : OutboundCall)
    (resp : Response) :
  snd (serve GeneralProxy rq) = [c] -> send c = Ok resp ->
  let reply := fst (serve GeneralProxy rq) in
  (status_code resp = 204 ->
   generic_error_shape reply 204 /\
   resp_body reply <> JsonBody success_sentinel) /\
  (status_code resp <> 200 -> status_code resp <> 201 ->
   generic_error_shape reply (status_code resp)) /\
  (status_code resp = 200 \/ status_code resp = 201 ->
   reply = match json_body resp with
           | Some j => jsonify j
           | None => mk_proxy_response 200 (TextBody (text resp)) []
           end).
Proof.
  intros H Hs. unfold generic_error_shape. run_view.
  all: repeat match goal with E : json_body _ = _ |- _ => rewrite E end.
  all: repeat split; intros; try lia; try reflexivity; try discriminate.
  all: try (eexists; split; [reflexivity|]; simpl; split; congruence).
  all: try (destruct H1; lia).
Qed.

(** ** Further properties of the views *)

(** X1.  An OPTIONS request to any of the five routes is answered with the
    preflight reply, whatever its body, and makes no outbound call. *)
Theorem preflight_makes_no_call (op : operation) (rq : Request) :
  req_method rq = OPTIONS -> serve op rq = (handle_preflight, []).
Proof.
  intros Hm. destruct op; unfold serve, view, proxy_query, proxy_describe,
    proxy_create_record, proxy_record_operations, general_proxy;
    rewrite Hm; reflexivity.
Qed.

(** X2.  Serving a request makes at most one outbound call: nothing is
    retried, on any route and after any failure. *)
Theorem at_most_one_call (op : operation) (rq : Request) :
  (length (snd (serve op rq)) <= 1)%nat.
Proof.
  destruct op; unfold_views; exec_goal; simpl; lia.
Qed.

(** X3.  No exception leaves a view: whatever the request and whatever the
    network does, the view returns a reply of its own, so Flask's 500 error
    handler is never reached through the five routes. *)
Theorem view_never_raises (op : operation) (rq : Request) :
  exists reply tr, view op rq [] = (Ok reply, tr).
Proof.
  destruct op; unfold_views; exec_goal; eexists; eexists; reflexivity.
Qed.

(** X4.  Every reply whose status is not 200 has a JSON object body with the
    key "error". *)
Theorem non_200_reply_has_error (op : operation) (rq : Request) :
  resp_status (fst (serve op rq)) <> 200 ->
  has_key (resp_body (fst (serve op rq))) "error" = true.
Proof.
  intros H. destruct op; run_view; try reflexivity; try contradiction;
    try (now destruct H).
Qed.

(** Turn what the run recorded about the payload into facts on its members. *)
Ltac payload_facts :=
  repeat match goal with
  | E : py_getitem _ _ = Ok _ |- _ =>
      apply py_getitem_Ok in E; destruct E as (? & ? & ?)
  end;
  repeat match goal with
  | E : py_or ?a (JObj []) = JObj ?m, E' : lookup _ ?m = Some _ |- _ =>
      apply py_or_object in E; [|exact (lookup_nonempty _ _ _ E')];
      first [subst a | inversion E; clear E; subst]
  end;
  subst;
  repeat match goal with
  | E : JObj _ = JObj _ |- _ => inversion E; clear E; subst
  end.

(** X5.  An outbound call is made only for a request that is not a preflight
    and whose payload is a JSON object with every required field of the
    operation present. *)
Theorem call_requires_fields (op : operation) (rq : Request) (c : OutboundCall) :
  In c (snd (serve op rq)) ->
  req_method rq <> OPTIONS /\
  exists l, req_json rq = Ok (JObj l) /\
            forall k, In k (op_required_fields op) -> key_in k l = true.
Proof.
  intros H. destruct op; run_view; try contradiction; payload_facts.
  all: split; [intros Ho; rewrite Ho in *; discriminate|].
  all: eexists; split; [reflexivity|].
  all: unfold key_in, op_required_fields, required_fields; simpl;
    intros k Hk;
    repeat (destruct Hk as [<-|Hk];
            [match goal with E : lookup _ _ = Some _ |- _ => now rewrite E end|]);
    contradiction.
Qed.

(** X6.  On the four record-style routes every outbound call goes to
    <instanceUrl>/services/data/v58.0 followed by the path of the route,
    where instanceUrl is the field of the payload rendered as text, and has
    the timeout 30. *)
Theorem record_style_url (op : operation) (rq : Request) (c : OutboundCall) :
  op <> GeneralProxy ->
  In c (snd (serve op rq)) ->
  exists l u,
    req_json rq = Ok (JObj l) /\
    lookup "instanceUrl" l = Some u /\
    call_url c = py_str u ++ "/services/data/v58.0" ++ route_path op /\
    call_timeout c = 30.
Proof.
  intros Hop H. destruct op; [| | | |now destruct Hop].
  all: run_view; try contradiction; payload_facts.
  all: destruct H as [<-|[]]; simpl.
  all: eexists; eexists; split; [reflexivity|]; split; [eassumption|];
    split; reflexivity.
Qed.

(** X7.  The query and describe routes only ever issue a GET without a JSON
    body; the query route passes the query field of the payload, unchanged,
    as the single query-string parameter q, and describe passes none. *)
Theorem read_routes_issue_get (op : operation) (rq : Request) (c : OutboundCall) :
  guarded op = true ->
  In c (snd (serve op rq)) ->
  call_method c = GET /\ call_json c = None /\
  exists l, req_json rq = Ok (JObj l) /\
    call_params c = match op with
                    | Query => option_map (fun q => [("q", q)]) (lookup "query" l)
                    | _ => None
                    end.
Proof.
  intros Hop H. destruct op; try discriminate.
  all: run_view; try contradiction; payload_facts.
  all: destruct H as [<-|[]]; simpl.
  all: repeat split; eexists; split; [reflexivity|].
  all: try match goal with E : lookup "query" _ = Some _ |- _ => rewrite E end;
    reflexivity.
Qed.

(** X8.  The create route only ever issues a POST whose JSON body is the
    recordData field of the payload, unchanged, whatever JSON value it is. *)
Theorem create_posts_record_data (object_name : string) (rq : Request)
    (c : OutboundCall) :
  In c (snd (serve (CreateRecord object_name) rq)) ->
  exists l record_data,
    req_json rq = Ok (JObj l) /\
    lookup "recordData" l = Some record_data /\
    call_method c = POST /\ call_json c = Some record_data /\
    call_params c = None.
Proof.
  intros H. run_view; try contradiction; payload_facts.
  all: destruct H as [<-|[]]; simpl.
  all: eexists; eexists; split; [reflexivity|]; split; [eassumption|];
    repeat split.
Qed.

Lemma py_or_nonempty (k : string) (l : list (string * json)) (x : json) :
  lookup k l = Some x -> py_or (JObj l) (JObj []) = JObj l.
Proof. destruct l; [discriminate | reflexivity]. Qed.

(** X9.  On the record route the outbound call has the method of the inbound
    request, which is GET, PATCH or DELETE; only PATCH carries a JSON body,
    the recordData field of the payload or the empty object when the field is
    absent. *)
Theorem record_call_follows_request (object_name record_id : string)
    (rq : Request) (c : OutboundCall) :
  In c (snd (serve (RecordOperations object_name record_id) rq)) ->
  call_method c = req_method rq /\
  record_method (req_method rq) = true /\
  exists l, req_json rq = Ok (JObj l) /\
    call_json c = match req_method rq with
                  | PATCH => Some match lookup "recordData" l with
                                  | Some d => d
                                  | None => JObj []
                                  end
                  | _ => None
                  end.
Proof.
  intros H. run_view; try contradiction; payload_facts.
  all: destruct H as [<-|[]]; simpl.
  all: repeat split; eexists; split; [reflexivity|]; try reflexivity.
  all: match goal with
       | E : lookup "instanceUrl" ?l = Some _,
         G : py_get (py_or (JObj ?l) _) _ _ = Ok _ |- _ =>
           rewrite (py_or_nonempty _ _ _ E) in G; simpl in G;
           inversion G; reflexivity
       end.
Qed.

(** X10.  [rstrip('/')] removes exactly the trailing slashes: what is left
    does not end with a slash, and the argument is what is left followed by
    slashes only. *)
Theorem rstrip_slash_spec (s : string) :
  ends_with_slash (rstrip_slash s) = false /\
  exists n, s = rstrip_slash s ++ slashes n.
Proof.
  induction s as [|c s [IHe [n IHn]]]; simpl.
  - split; [reflexivity | now exists O].
  - destruct (rstrip_slash s) as [|d t] eqn:E.
    + destruct (Ascii.eqb c "/") eqn:Ec.
      * apply Ascii.eqb_eq in Ec. subst c. split; [reflexivity|].
        exists (S n). simpl. now rewrite IHn at 1.
      * split; [simpl; exact Ec|]. exists n. simpl. now rewrite IHn at 1.
    + split; [exact IHe|]. exists n. simpl. now rewrite IHn at 1.
Qed.

Lemma py_upper_Ok (v : json) (m : string) :
  py_upper v = Ok m -> exists s, v = JStr s /\ m = str_upper s.
Proof.
  destruct v; simpl; try discriminate. intros H. inversion H. now exists s.
Qed.

Lemma py_rstrip_slash_Ok (v : json) (b : string) :
  py_rstrip_slash v = Ok b -> exists s, v = JStr s /\ b = rstrip_slash s.
Proof.
  destruct v; simpl; try discriminate. intros H. inversion H. now exists s.
Qed.

Ltac string_facts :=
  repeat match goal with
  | E : py_upper _ = Ok _ |- _ =>
      apply py_upper_Ok in E; destruct E as (? & ? & ?)
  | E : py_rstrip_slash _ = Ok _ |- _ =>
      apply py_rstrip_slash_Ok in E; destruct E as (? & ? & ?)
  end; subst.

(** X11.  On the generic route every outbound call goes to the instance_url
    of the payload, a string, without its trailing slashes, followed by the
    endpoint rendered as text; its method is the upper-cased method field
    (GET when absent), one of GET, POST, PUT, DELETE; and only POST and PUT
    carry a JSON body, the body field of the payload or null when absent. *)
Theorem generic_call_shape (rq : Request) (c : OutboundCall) :
  In c (snd (serve GeneralProxy rq)) ->
  exists l u endpoint m,
    req_json rq = Ok (JObj l) /\
    lookup "instance_url" l = Some (JStr u) /\
    lookup "endpoint" l = Some endpoint /\
    py_get (JObj l) "method" (JStr "GET") = Ok (JStr m) /\
    dispatch_method (str_upper m) = Some (call_method c) /\
    call_url c = rstrip_slash u ++ py_str endpoint /\
    call_json c = match call_method c with
                  | POST | PUT => Some match lookup "body" l with
                                       | Some b => b
                                       | None => JNull
                                       end
                  | _ => None
                  end /\
    call_timeout c = 30.
Proof.
  intros H. run_view; try contradiction; payload_facts; string_facts.
  all: destruct H as [<-|[]]; simpl.
  all: do 4 eexists; split; [reflexivity|]; split; [eassumption|];
    split; [eassumption|]; split; [eassumption|].
  all: unfold dispatch_method.
  all: repeat match goal with
       | E : String.eqb _ _ = _ |- _ => rewrite E; clear E
       end.
  all: split; [reflexivity|]; split; [reflexivity|]; split; [|reflexivity].
  all: try reflexivity.
  all: match goal with
       | E : py_get _ "body" _ = Ok _ |- _ =>
           simpl in E; inversion E; reflexivity
       end.
Qed.

Lemma timeout_is_request_exception (e : exn) :
  is_Timeout e = true -> is_RequestException e = true.
Proof.
  unfold is_Timeout, is_RequestException.
  destruct (exn_cls e); intros H; try discriminate H; reflexivity.
Qed.

Lemma proxy_error_is_request_exception (e : exn) :
  is_ProxyError e = true -> is_RequestException e = true.
Proof.
  unfold is_ProxyError, is_RequestException.
  destruct (exn_cls e); intros H; try discriminate H; reflexivity.
Qed.

Ltac exn_facts :=
  repeat match goal with
  | E : is_Timeout ?e = true, E' : is_RequestException ?e = false |- _ =>
      rewrite (timeout_is_request_exception e E) in E'; discriminate E'
  | E : is_ProxyError ?e = true, E' : is_RequestException ?e = false |- _ =>
      rewrite (proxy_error_is_request_exception e E) in E'; discriminate E'
  end.

(** X12.  On the query and describe routes a failed outbound call is
    answered from the inner handlers: a ProxyError with status 403 and the
    remediation text, every other RequestException, a timeout included, with
    status 500 "Network error" naming the message and the class of the
    exception; any other exception with status 500 "Internal server error".
    No failure of the call is answered with status 504 on these routes. *)
Theorem guarded_call_failure (op : operation) (rq : Request)
    (c : OutboundCall) (e : exn) :
  guarded op = true ->
  In c (snd (serve op rq)) ->
  send c = Raise e ->
  let reply := fst (serve op rq) in
  (is_ProxyError e = true ->
   resp_status reply = 403 /\
   has_key (resp_body reply) "solution" = true /\
   includes (resp_body reply) (JStr (exn_str e))) /\
  (is_ProxyError e = false -> is_RequestException e = true ->
   reply = jsonify_status
             (JObj [("error", JStr "Network error");
                    ("message", JStr (exn_str e));
                    ("type", JStr (class_name (exn_cls e)))]) 500) /\
  (is_RequestException e = false ->
   reply = error_reply ("Internal server error: " ++ exn_str e) 500) /\
  resp_status reply <> 504.
Proof.
  intros Hop H Hs. destruct op; try discriminate.
  all: run_view; try contradiction.
  all: destruct H as [<-|[]].
  all: repeat match goal with
       | E1 : send ?c = _, E2 : send ?c = _ |- _ =>
           rewrite E1 in E2; inversion E2; subst; clear E2
       end.
  all: repeat split; intros; exn_facts; simpl; try congruence; auto 6;
    try discriminate.
Qed.

(** X13.  On the create, record and generic routes a failed outbound call is
    answered by the outer handlers: a timeout with {"error": "Request
    timeout"} and status 504 (408 on the generic route), any other
    RequestException with status 500 and the message after "Request error: "
    ("Request failed: " on the generic route), and any other exception with
    status 500 and the message after "Internal server error: " ("Unexpected
    error: " on the generic route). *)
Theorem unguarded_call_failure (op : operation) (rq : Request)
    (c : OutboundCall) (e : exn) :
  guarded op = false ->
  In c (snd (serve op rq)) ->
  send c = Raise e ->
  fst (serve op rq)
  = if is_Timeout e then error_reply "Request timeout" (timeout_status op)
    else if is_RequestException e
         then error_reply (request_error_prefix op ++ exn_str e) 500
         else error_reply (catch_all_prefix op ++ exn_str e) 500.
Proof.
  intros Hop H Hs. destruct op; try discriminate.
  all: run_view; try contradiction.
  all: destruct H as [<-|[]].
  all: repeat match goal with
       | E1 : send ?c = _, E2 : send ?c = _ |- _ =>
           rewrite E1 in E2; inversion E2; subst; clear E2
       end.
  all: repeat match goal with
       | E : is_Timeout _ = _ |- _ => rewrite E; clear E
       | E : is_RequestException _ = _ |- _ => rewrite E; clear E
       end; reflexivity.
Qed.

(** X14.  When the body of the request cannot be read as JSON (get_json
    raises an error that is not a RequestException), every route answers
    status 500 with the message of the error after its catch-all prefix, and
    makes no outbound call. *)
Theorem unreadable_body_is_500 (op : operation) (rq : Request) (e : exn) :
  req_method rq <> OPTIONS ->
  req_json rq = Raise e ->
  is_RequestException e = false ->
  serve op rq = (error_reply (catch_all_prefix op ++ exn_str e) 500, []).
Proof.
  intros Hm Hj He. apply not_options in Hm.
  assert (Ht : is_Timeout e = false).
  { destruct (is_Timeout e) eqn:E; [|reflexivity].
    apply timeout_is_request_exception in E. congruence. }
  destruct op; unfold_views; rewrite Hm, Hj; simpl; rewrite Ht, He;
    reflexivity.
Qed.

Lemma missing_required_present (l : list (string * json)) (ks : list string)
    (k : string) (x : json) :
  lookup k l = Some x ->
  (forall k', In k' ks -> key_in k' l = true) ->
  missing_required (JObj l) ks = Ok false.
Proof.
  intros Hk Hall. unfold missing_required.
  replace (truthy (JObj l)) with true by (destruct l; [discriminate|reflexivity]).
  rewrite any_missing_object. f_equal. apply negb_false_iff.
  now apply forallb_forall.
Qed.

(** X15.  On the query route a payload with all three fields is forwarded
    exactly when its query and sessionId are strings or arrays: the log lines
    slice both before the call, so with any other value there (a number,
    null, an object) the reply is status 500 and no outbound call is made. *)
Theorem query_forwards_sliceable_only (rq : Request)
    (l : list (string * json)) (q u sid : json) :
  req_method rq <> OPTIONS ->
  req_json rq = Ok (JObj l) ->
  lookup "query" l = Some q ->
  lookup "instanceUrl" l = Some u ->
  lookup "sessionId" l = Some sid ->
  if sliceable q && sliceable sid
  then exists c, snd (serve Query rq) = [c]
  else resp_status (fst (serve Query rq)) = 500 /\ snd (serve Query rq) = [].
Proof.
  intros Hm Hj Hq Hu Hs. apply not_options in Hm.
  assert (Hv : missing_required (JObj l) ["query"; "instanceUrl"; "sessionId"]
               = Ok false).
  { apply missing_required_present with "query" q; [assumption|].
    unfold key_in. simpl. intros k [<-|[<-|[<-|[]]]].
    - now rewrite Hq.
    - now rewrite Hu.
    - now rewrite Hs. }
  unfold_views. rewrite Hm, Hj, Hv. unfold py_getitem. rewrite Hq, Hu, Hs.
  destruct q, sid; simpl; exec_goal;
    first [split; reflexivity | eexists; reflexivity].
Qed.

(** X16.  On the describe, create and record routes validation is the only
    gate: a request that is not a preflight (on the record route a GET, PATCH
    or DELETE) and whose payload is an object with every required field,
    whatever the values of the fields, leads to exactly one outbound call. *)
Theorem validated_request_is_forwarded (op : operation) (rq : Request)
    (l : list (string * json)) :
  op <> Query -> op <> GeneralProxy ->
  req_method rq <> OPTIONS ->
  (forall o i, op = RecordOperations o i -> record_method (req_method rq) = true) ->
  req_json rq = Ok (JObj l) ->
  (forall k, In k (op_required_fields op) -> key_in k l = true) ->
  exists c, snd (serve op rq) = [c].
Proof.
  intros Hq Hg Hm Hrec Hj Hall. apply not_options in Hm.
  assert (Hu : key_in "instanceUrl" l = true)
    by (apply Hall; destruct op; simpl; auto; contradiction).
  assert (Hs : key_in "sessionId" l = true)
    by (apply Hall; destruct op; simpl; auto; contradiction).
  unfold key_in in Hu, Hs.
  destruct (lookup "instanceUrl" l) as [u|] eqn:Eu; [|discriminate].
  destruct (lookup "sessionId" l) as [sid|] eqn:Es; [|discriminate].
  assert (Hv : missing_required (JObj l) (op_required_fields op) = Ok false)
    by (now apply missing_required_present with "instanceUrl" u).
  assert (Hor := py_or_nonempty _ _ _ Eu).
  destruct op; try contradiction; simpl in Hv.
  - unfold_views. rewrite Hm, Hj, Hv. unfold py_getitem. rewrite Eu, Es.
    exec_goal; eexists; reflexivity.
  - assert (Hr : key_in "recordData" l = true) by (apply Hall; simpl; auto).
    unfold key_in in Hr.
    destruct (lookup "recordData" l) as [rd|] eqn:Er; [|discriminate].
    unfold_views. rewrite Hm, Hj, Hv. unfold py_getitem. rewrite Eu, Es, Er.
    exec_goal; eexists; reflexivity.
  - specialize (Hrec _ _ eq_refl).
    unfold missing_required in Hv.
    replace (truthy (JObj l)) with true in Hv
      by (destruct l; [discriminate|reflexivity]).
    unfold_views. rewrite Hj, Hor, Hv. unfold py_getitem, py_get.
    rewrite Eu, Es.
    destruct (req_method rq); try discriminate; exec_goal; eexists; reflexivity.
Qed.

(** X17.  On the record route a request with a valid payload but a method
    other than GET, PATCH, DELETE or OPTIONS (the HEAD that Flask routes
    along with GET) finds no branch that makes the call: the reply is status
    500 and no outbound call is made. *)
Theorem record_route_other_method (object_name record_id : string)
    (rq : Request) (l : list (string * json)) (u sid : json) :
  req_method rq <> OPTIONS ->
  record_method (req_method rq) = false ->
  req_json rq = Ok (JObj l) ->
  lookup "instanceUrl" l = Some u ->
  lookup "sessionId" l = Some sid ->
  resp_status (fst (serve (RecordOperations object_name record_id) rq)) = 500 /\
  snd (serve (RecordOperations object_name record_id) rq) = [].
Proof.
  intros Hm Hrec Hj Eu Es.
  assert (Hor := py_or_nonempty _ _ _ Eu).
  assert (Hv : any_missing (JObj l) ["instanceUrl"; "sessionId"] = Ok false).
  { rewrite any_missing_object. simpl. unfold key_in. now rewrite Eu, Es. }
  unfold_views. rewrite Hj, Hor, Hv. unfold py_getitem. rewrite Eu, Es.
  destruct (req_method rq); try discriminate; try (now destruct Hm);
    simpl; split; reflexivity.
Qed.

(** X18.  When the upstream answers with a success status and a JSON body
    that the log line of the route cannot read (not an object on the query,
    describe and create routes, or on describe an object whose fields member
    has no length), the reply is status 500 with an "error" body, although
    the call succeeded. *)
Theorem unloggable_success_is_500 (op : operation) (rq : Request)
    (c : OutboundCall) (resp : Response) (j : json) :
  In c (snd (serve op rq)) -> send c = Ok resp ->
  success_status op (status_code resp) = true ->
  json_body resp = Some j ->
  loggable op j = false ->
  resp_status (fst (serve op rq)) = 500 /\
  has_key (resp_body (fst (serve op rq))) "error" = true.
Proof.
  intros H Hs Hst Hj Hl. destruct op; try discriminate.
  all: run_view; try contradiction.
  all: destruct H as [<-|[]].
  all: repeat match goal with
       | E1 : send ?c = _, E2 : send ?c = _ |- _ =>
           rewrite E1 in E2; inversion E2; subst; clear E2
       end.
  all: repeat match goal with
       | E : json_body ?r = _, E' : json_body ?r = _ |- _ =>
           rewrite E in E'; inversion E'; subst; clear E'
       end.
  all: simpl in *; try discriminate; try lia.
  all: unfold py_get, py_len in *; exec; try discriminate.
  all: repeat match goal with
       | E : Raise _ = Raise _ |- _ => inversion E; clear E; subst
       | E : Ok _ = Ok _ |- _ => inversion E; clear E; subst
       end; simpl in *; try discriminate; try (split; reflexivity).
Qed.

(** X19.  On the generic route a payload that passes field validation but
    whose instance_url is not a string, or whose method field is present and
    not a string, is answered with status 500, and no outbound call is
    made. *)
Theorem generic_ill_typed_is_500 (rq : Request) (l : list (string * json))
    (k : string) (v : json) :
  req_method rq <> OPTIONS ->
  req_json rq = Ok (JObj l) ->
  missing_required (JObj l) required_fields = Ok false ->
  k = "instance_url" \/ k = "method" ->
  lookup k l = Some v -> is_string v = false ->
  resp_status (fst (serve GeneralProxy rq)) = 500 /\
  snd (serve GeneralProxy rq) = [].
Proof.
  intros Hm Hj Hv Hk Hl Hs. apply not_options in Hm.
  unfold_views. rewrite Hm, Hj, Hv.
  unfold py_getitem, py_get, py_upper, py_rstrip_slash.
  destruct Hk; subst k; rewrite Hl.
  - destruct v; try discriminate; exec_goal; split; reflexivity.
  - destruct v; try discriminate; exec_goal; split; reflexivity.
Qed.

(** X20.  A payload that is a non-zero number or true is answered with
    status 500 on every route, with no outbound call: the membership test of
    the validation raises on it. *)
Theorem scalar_payload_is_500 (op : operation) (rq : Request) (payload : json) :
  req_method rq <> OPTIONS ->
  req_json rq = Ok payload ->
  payload = JBool true \/ (exists n, payload = JNum n /\ n <> 0) ->
  resp_status (fst (serve op rq)) = 500 /\ snd (serve op rq) = [].
Proof.
  intros Hm Hj Hp. apply not_options in Hm.
  assert (Ht : truthy payload = true).
  { destruct Hp as [->|(n & -> & Hn)]; [reflexivity|].
    simpl. now apply negb_true_iff, Z.eqb_neq. }
  destruct op; unfold_views; unfold missing_required, py_or;
    rewrite Hm, Hj, Ht;
    destruct Hp as [->|(n & -> & Hn)]; simpl; split; reflexivity.
Qed.

End Forwarder.

(** ** The properties on concrete traffic *)

(** C1, as stated, fails: a payload that is a non-zero number has none of the
    required fields, yet POST /api/query answers 500, because [in] raises on
    a number and the catch-all clause takes the error. *)
Lemma number_payload_is_not_400 :
  let rq := mk_request POST (Ok (JNum 5)) in
  let out := serve (answering records_200) repr ascii_upper Query rq in
  req_method rq <> OPTIONS /\
  has_field "query" (JNum 5) = false /\
  resp_status (fst out) = 500 /\
  out <> (missing_fields_error Query, []).
Proof. repeat split; try reflexivity; discriminate. Qed.

(** The scenario of the specification: create record without recordData. *)
Lemma missing_field_rejected_witness :
  serve (answering created_201) repr ascii_upper (CreateRecord "Account")
    (mk_request POST (Ok record_payload))
  = (jsonify_status
       (JObj [("error",
               JStr "Missing required fields: instanceUrl, sessionId, recordData")])
       400, []).
Proof.
  apply (missing_field_rejected (answering created_201) repr ascii_upper
           (CreateRecord "Account") (mk_request POST (Ok record_payload))
           record_payload "recordData").
  - discriminate.
  - reflexivity.
  - left. reflexivity.
  - simpl. auto.
  - reflexivity.
Defined.

(** C2, as stated, fails: on the query route an upstream 201 with a valid
    JSON body is answered with status 201 and an error body. *)
Lemma query_201_is_not_passed_through :
  let rq := mk_request POST (Ok query_payload) in
  let out := serve (answering created_201) repr ascii_upper Query rq in
  (exists c, snd out = [c] /\ answering created_201 c = Ok created_201) /\
  status_code created_201 = 201 /\
  json_body created_201 = Some (JObj [("id", JStr "001")]) /\
  resp_status (fst out) = 201 /\
  fst out <> jsonify (JObj [("id", JStr "001")]).
Proof.
  repeat split; try reflexivity; [|discriminate].
  eexists. split; reflexivity.
Qed.

(** The scenario of the specification: a query answered with status 200. *)
Lemma success_passthrough_witness :
  fst (serve (answering records_200) repr ascii_upper Query
         (mk_request POST (Ok query_payload)))
  = jsonify (JObj [("totalSize", JNum 1);
                   ("records", JArr [JObj [("Id", JStr "001")]])]).
Proof.
  refine (proj1 (success_passthrough (answering records_200) repr ascii_upper
                   Query (mk_request POST (Ok query_payload))
                   (mk_call GET
                      "https://x.my.salesforce.com/services/data/v58.0/query/"
                      [("Authorization", "Bearer abc123");
                       ("Content-Type", "application/json");
                       ("Accept", "application/json")]
                      (Some [("q", JStr "SELECT Id FROM Account")]) None 30)
                   records_200 _ _ _ _ _) _ _).
  - reflexivity.
  - reflexivity.
  - discriminate.
  - reflexivity.
  - reflexivity.
  - reflexivity.
Defined.

(** C3, as stated, fails: on the query route an upstream 400 whose body
    parses as JSON is echoed as raw text, not as the parsed value. *)
Lemma query_error_details_are_raw_text :
  let rq := mk_request POST (Ok query_payload) in
  let out := serve (answering malformed_400) repr ascii_upper Query rq in
  (exists c, snd out = [c] /\ answering malformed_400 c = Ok malformed_400) /\
  (status_code malformed_400 < 200 \/ 300 <= status_code malformed_400) /\
  resp_status (fst out) = 400 /\
  ~ includes (resp_body (fst out)) (parsed_or_text malformed_400).
Proof.
  repeat split.
  - eexists. split; reflexivity.
  - right. discriminate.
  - simpl. intros [H|[H|[]]]; discriminate H.
Qed.

(** An upstream 400 on the generic route, whose body parses as JSON. *)
Lemma upstream_error_echoed_witness :
  let out := serve (answering malformed_400) repr ascii_upper GeneralProxy
               (mk_request POST
                  (Ok (proxy_payload (JStr "https://x.my.salesforce.com/") "get"))) in
  resp_status (fst out) = 400 /\
  exists m,
    resp_body (fst out) = JsonBody (JObj m) /\
    lookup "details" m = Some (JArr []).
Proof.
  apply (upstream_error_echoed (answering malformed_400) repr ascii_upper
           GeneralProxy _
           (mk_call GET
              "https://x.my.salesforce.com/services/data/v58.0/limits"
              [("Authorization", "Bearer abc123");
               ("Content-Type", "application/json");
               ("Accept", "application/json")] None None 30)
           malformed_400).
  - reflexivity.
  - reflexivity.
  - right. discriminate.
Defined.


(** C5: evaluation at the failing inputs.  A ProxyError gets the 403 reply on
    the query and describe routes only; create record, record
    get/update/delete and the generic proxy answer 500. *)
Theorem proxy_error_is_500_outside_query_and_describe :
  let run := serve (failing proxy_blocked) repr ascii_upper in
  resp_status (fst (run Query (mk_request POST (Ok query_payload)))) = 403 /\
  resp_status (fst (run (Describe "Account")
                      (mk_request POST (Ok record_payload)))) = 403 /\
  fst (run (CreateRecord "Account") (mk_request POST (Ok create_payload)))
  = jsonify_status
      (JObj [("error", JStr "Request error: Cannot connect to proxy.")]) 500 /\
  fst (run (RecordOperations "Account" "001")
         (mk_request GET (Ok record_payload)))
  = jsonify_status
      (JObj [("error", JStr "Request error: Cannot connect to proxy.")]) 500 /\
  fst (run GeneralProxy
         (mk_request POST
            (Ok (proxy_payload (JStr "https://x.my.salesforce.com") "GET"))))
  = jsonify_status
      (JObj [("error", JStr "Request failed: Cannot connect to proxy.")]) 500.
Proof. repeat split; reflexivity. Qed.

(** C6: evaluation at the failing inputs.  On a read timeout the query and
    describe routes answer 500 "Network error": their inner [except
    RequestException] takes the timeout before the outer [except Timeout]
    can.  Create record and the record route answer 504, the generic proxy
    408; every body has the key "error". *)
Theorem timeout_is_500_on_query_and_describe :
  let run := serve (failing read_timed_out) repr ascii_upper in
  let q := fst (run Query (mk_request POST (Ok query_payload))) in
  let d := fst (run (Describe "Account") (mk_request POST (Ok record_payload))) in
  let c := fst (run (CreateRecord "Account") (mk_request POST (Ok create_payload))) in
  let r := fst (run (RecordOperations "Account" "001")
                  (mk_request GET (Ok record_payload))) in
  let g := fst (run GeneralProxy
                  (mk_request POST
                     (Ok (proxy_payload (JStr "https://x.my.salesforce.com") "GET")))) in
  q = jsonify_status
        (JObj [("error", JStr "Network error");
               ("message", JStr "Read timed out. (read timeout=30)");
               ("type", JStr "ReadTimeout")]) 500 /\
  resp_status d = 500 /\
  resp_status c = 504 /\ resp_status r = 504 /\ resp_status g = 408 /\
  forallb (fun reply => has_key (resp_body reply) "error") [q; d; c; r; g] = true.
Proof. repeat split; reflexivity. Qed.

(** C7, as stated, fails: a PATCH whose payload has instanceUrl and sessionId
    but no recordData is forwarded, with an empty object as its body. *)
Lemma patch_without_record_data_is_forwarded :
  let rq := mk_request PATCH (Ok record_payload) in
  let out := serve (answering no_content_204) repr ascii_upper
               (RecordOperations "Account" "001") rq in
  has_field "instanceUrl" record_payload = true /\
  has_field "sessionId" record_payload = true /\
  has_field "recordData" record_payload = false /\
  snd out <> [] /\
  map call_json (snd out) = [Some (JObj [])] /\
  resp_status (fst out) <> 400.
Proof. repeat split; try reflexivity; discriminate. Qed.

(** An update without recordData. *)
Lemma update_defaults_record_data_witness :
  snd (serve (answering no_content_204) repr ascii_upper
         (RecordOperations "Account" "001")
         (mk_request PATCH (Ok record_payload)))
  = [mk_call PATCH
       "https://x.my.salesforce.com/services/data/v58.0/sobjects/Account/001"
       [("Authorization", "Bearer abc123");
        ("Content-Type", "application/json");
        ("Accept", "application/json")]
       None (Some (JObj [])) 30].
Proof.
  apply (update_defaults_record_data (answering no_content_204) repr
           ascii_upper "Account" "001" (mk_request PATCH (Ok record_payload))
           [("instanceUrl", JStr "https://x.my.salesforce.com");
            ("sessionId", JStr "abc123")]
           (JStr "https://x.my.salesforce.com") (JStr "abc123"));
    reflexivity.
Defined.

(** The headers of the call made for a query. *)
Lemma bearer_from_request_witness :
  exists (l : list (string * json)) (cred : json),
    Ok query_payload = Ok (JObj l) /\
    lookup "sessionId" l = Some cred /\
    [("Authorization", "Bearer abc123");
     ("Content-Type", "application/json");
     ("Accept", "application/json")]
    = [("Authorization", "Bearer " ++ py_str repr cred);
       ("Content-Type", "application/json");
       ("Accept", "application/json")] /\
    (forall s, cred = JStr s -> py_str repr cred = s).
Proof.
  apply (bearer_from_request (answering records_200) repr ascii_upper Query
           (mk_request POST (Ok query_payload))
           (mk_call GET
              "https://x.my.salesforce.com/services/data/v58.0/query/"
              [("Authorization", "Bearer abc123");
               ("Content-Type", "application/json");
               ("Accept", "application/json")]
              (Some [("q", JStr "SELECT Id FROM Account")]) None 30)).
  left. reflexivity.
Defined.

(** C9, as stated, fails: a payload that passes field validation with a
    number as instance_url and the method patch is answered 500, because the
    URL is built, and [rstrip] raises, before the method is dispatched. *)
Lemma numeric_instance_url_is_not_400 :
  let payload := proxy_payload (JNum 5) "patch" in
  let out := serve (answering records_200) repr ascii_upper GeneralProxy
               (mk_request POST (Ok payload)) in
  missing_required payload required_fields = Ok false /\
  py_get payload "method" (JStr "GET") = Ok (JStr "patch") /\
  dispatch_method (ascii_upper "patch") = None /\
  resp_status (fst out) = 500 /\
  fst out <> jsonify_status
               (JObj [("error", JStr "Unsupported HTTP method: PATCH")]) 400.
Proof. repeat split; try reflexivity; discriminate. Qed.

(** The method patch on the generic route. *)
Lemma unsupported_method_rejected_witness :
  serve (answering records_200) repr ascii_upper GeneralProxy
    (mk_request POST
       (Ok (proxy_payload (JStr "https://x.my.salesforce.com/") "patch")))
  = (jsonify_status
       (JObj [("error", JStr "Unsupported HTTP method: PATCH")]) 400, []).
Proof.
  exact (unsupported_method_rejected (answering records_200) repr ascii_upper
           (mk_request POST
              (Ok (proxy_payload (JStr "https://x.my.salesforce.com/") "patch")))
           [("instance_url", JStr "https://x.my.salesforce.com/");
            ("endpoint", JStr "/services/data/v58.0/limits");
            ("auth_token", JStr "abc123");
            ("method", JStr "patch")]
           "https://x.my.salesforce.com/" "patch"
           eq_refl eq_refl eq_refl eq_refl eq_refl).
Defined.

(** A DELETE through the generic route, answered with 204. *)
Lemma generic_204_is_error_witness :
  let reply := fst (serve (answering no_content_204) repr ascii_upper
                      GeneralProxy
                      (mk_request POST
                         (Ok (proxy_payload (JStr "https://x.my.salesforce.com/")
                                "delete")))) in
  generic_error_shape reply 204 /\
  resp_body reply <> JsonBody success_sentinel.
Proof.
  refine (proj1 (generic_204_is_error (answering no_content_204) repr
                   ascii_upper _
                   (mk_call DELETE
                      "https://x.my.salesforce.com/services/data/v58.0/limits"
                      [("Authorization", "Bearer abc123");
                       ("Content-Type", "application/json");
                       ("Accept", "application/json")] None None 30)
                   no_content_204 _ _) _).
  - reflexivity.
  - reflexivity.
  - reflexivity.
Defined.

(** ** The further properties on concrete traffic *)

(** A preflight whose body is not JSON. *)
Lemma preflight_makes_no_call_witness :
  serve (answering records_200) repr ascii_upper Query
    (mk_request OPTIONS (Raise bad_request))
  = (handle_preflight, []).
Proof.
  apply (preflight_makes_no_call (answering records_200) repr ascii_upper
           Query (mk_request OPTIONS (Raise bad_request))).
  reflexivity.
Defined.

(** An upstream 400 on the query route. *)
Lemma non_200_reply_has_error_witness :
  has_key
    (resp_body (fst (serve (answering malformed_400) repr ascii_upper Query
                       (mk_request POST (Ok query_payload)))))
    "error" = true.
Proof.
  apply (non_200_reply_has_error (answering malformed_400) repr ascii_upper
           Query (mk_request POST (Ok query_payload))).
  discriminate.
Defined.

(** The call made for a query. *)
Lemma call_requires_fields_witness :
  POST <> OPTIONS /\
  exists l, Ok query_payload = Ok (JObj l) /\
            forall k, In k ["query"; "instanceUrl"; "sessionId"] ->
                      key_in k l = true.
Proof.
  apply (call_requires_fields (answering records_200) repr ascii_upper Query
           (mk_request POST (Ok query_payload)) query_call).
  left. reflexivity.
Defined.

(** The URL of the call made for a create. *)
Lemma record_style_url_witness :
  exists l u,
    Ok create_payload = Ok (JObj l) /\
    lookup "instanceUrl" l = Some u /\
    call_url create_call
    = py_str repr u ++ "/services/data/v58.0" ++ "/sobjects/Account/" /\
    call_timeout create_call = 30.
Proof.
  apply (record_style_url (answering created_201) repr ascii_upper
           (CreateRecord "Account") (mk_request POST (Ok create_payload))
           create_call).
  - discriminate.
  - left. reflexivity.
Defined.

(** The parameters of the call made for a query. *)
Lemma read_routes_issue_get_witness :
  call_method query_call = GET /\ call_json query_call = None /\
  exists l, Ok query_payload = Ok (JObj l) /\
    call_params query_call
    = option_map (fun q => [("q", q)]) (lookup "query" l).
Proof.
  apply (read_routes_issue_get (answering records_200) repr ascii_upper Query
           (mk_request POST (Ok query_payload)) query_call).
  - reflexivity.
  - left. reflexivity.
Defined.

(** The body of the call made for a create. *)
Lemma create_posts_record_data_witness :
  exists l record_data,
    Ok create_payload = Ok (JObj l) /\
    lookup "recordData" l = Some record_data /\
    call_method create_call = POST /\
    call_json create_call = Some record_data /\
    call_params create_call = None.
Proof.
  apply (create_posts_record_data (answering created_201) repr ascii_upper
           "Account" (mk_request POST (Ok create_payload)) create_call).
  left. reflexivity.
Defined.

(** An update without recordData. *)
Lemma record_call_follows_request_witness :
  call_method patch_call = PATCH /\
  record_method PATCH = true /\
  exists l, Ok record_payload = Ok (JObj l) /\
    call_json patch_call
    = Some match lookup "recordData" l with
           | Some d => d
           | None => JObj []
           end.
Proof.
  apply (record_call_follows_request (answering no_content_204) repr
           ascii_upper "Account" "001"
           (mk_request PATCH (Ok record_payload)) patch_call).
  left. reflexivity.
Defined.

(** A post through the generic route, from an instance_url with a trailing
    slash. *)
Lemma generic_call_shape_witness :
  exists l u endpoint m,
    Ok (proxy_payload (JStr "https://x.my.salesforce.com/") "post")
    = Ok (JObj l) /\
    lookup "instance_url" l = Some (JStr u) /\
    lookup "endpoint" l = Some endpoint /\
    py_get (JObj l) "method" (JStr "GET") = Ok (JStr m) /\
    dispatch_method (ascii_upper m) = Some POST /\
    "https://x.my.salesforce.com/services/data/v58.0/limits"
    = rstrip_slash u ++ py_str repr endpoint /\
    Some JNull = Some match lookup "body" l with
                      | Some b => b
                      | None => JNull
                      end /\
    30 = 30.
Proof.
  apply (generic_call_shape (answering records_200) repr ascii_upper
           (mk_request POST
              (Ok (proxy_payload (JStr "https://x.my.salesforce.com/") "post")))
           (limits_call POST (Some JNull))).
  left. reflexivity.
Defined.

(** A read timeout on the query route. *)
Lemma guarded_call_failure_witness :
  resp_status (fst (serve (failing read_timed_out) repr ascii_upper Query
                      (mk_request POST (Ok query_payload)))) <> 504.
Proof.
  refine (proj2 (proj2 (proj2
            (guarded_call_failure (failing read_timed_out) repr ascii_upper
               Query (mk_request POST (Ok query_payload)) query_call
               read_timed_out _ _ _)))).
  - reflexivity.
  - left. reflexivity.
  - reflexivity.
Defined.

(** A read timeout on the generic route. *)
Lemma unguarded_call_failure_witness :
  fst (serve (failing read_timed_out) repr ascii_upper GeneralProxy
         (mk_request POST
            (Ok (proxy_payload (JStr "https://x.my.salesforce.com") "GET"))))
  = error_reply "Request timeout" 408.
Proof.
  apply (unguarded_call_failure (failing read_timed_out) repr ascii_upper
           GeneralProxy _ (limits_call GET None) read_timed_out).
  - reflexivity.
  - left. reflexivity.
  - reflexivity.
Defined.

(** A create whose body is not JSON. *)
Lemma unreadable_body_is_500_witness :
  serve (answering created_201) repr ascii_upper (CreateRecord "Account")
    (mk_request POST (Raise bad_request))
  = (error_reply
       "Internal server error: 400 Bad Request: Failed to decode JSON object"
       500, []).
Proof.
  apply (unreadable_body_is_500 (answering created_201) repr ascii_upper
           (CreateRecord "Account") (mk_request POST (Raise bad_request))
           bad_request).
  - discriminate.
  - reflexivity.
  - reflexivity.
Defined.

(** A query whose sessionId is a number. *)
Lemma query_forwards_sliceable_only_witness :
  let rq := mk_request POST
              (Ok (JObj [("query", JStr "SELECT Id FROM Account");
                         ("instanceUrl", JStr "https://x.my.salesforce.com");
                         ("sessionId", JNum 42)])) in
  resp_status (fst (serve (answering records_200) repr ascii_upper Query rq))
  = 500 /\
  snd (serve (answering records_200) repr ascii_upper Query rq) = [].
Proof.
  exact (query_forwards_sliceable_only (answering records_200) repr
           ascii_upper
           (mk_request POST
              (Ok (JObj [("query", JStr "SELECT Id FROM Account");
                         ("instanceUrl", JStr "https://x.my.salesforce.com");
                         ("sessionId", JNum 42)])))
           [("query", JStr "SELECT Id FROM Account");
            ("instanceUrl", JStr "https://x.my.salesforce.com");
            ("sessionId", JNum 42)]
           (JStr "SELECT Id FROM Account")
           (JStr "https://x.my.salesforce.com") (JNum 42)
           ltac:(discriminate) eq_refl eq_refl eq_refl eq_refl).
Defined.

(** A describe whose instanceUrl and sessionId are numbers. *)
Lemma validated_request_is_forwarded_witness :
  exists c,
    snd (serve (answering records_200) repr ascii_upper (Describe "Account")
           (mk_request POST
              (Ok (JObj [("instanceUrl", JNum 1); ("sessionId", JNum 2)]))))
    = [c].
Proof.
  apply (validated_request_is_forwarded (answering records_200) repr
           ascii_upper (Describe "Account")
           (mk_request POST
              (Ok (JObj [("instanceUrl", JNum 1); ("sessionId", JNum 2)])))
           [("instanceUrl", JNum 1); ("sessionId", JNum 2)]).
  - discriminate.
  - discriminate.
  - discriminate.
  - intros o i H. discriminate H.
  - reflexivity.
  - intros k [<-|[<-|[]]]; reflexivity.
Defined.

(** A HEAD request on the record route. *)
Lemma record_route_other_method_witness :
  resp_status (fst (serve (answering records_200) repr ascii_upper
                      (RecordOperations "Account" "001")
                      (mk_request HEAD (Ok record_payload)))) = 500 /\
  snd (serve (answering records_200) repr ascii_upper
         (RecordOperations "Account" "001")
         (mk_request HEAD (Ok record_payload))) = [].
Proof.
  apply (record_route_other_method (answering records_200) repr ascii_upper
           "Account" "001" (mk_request HEAD (Ok record_payload))
           [("instanceUrl", JStr "https://x.my.salesforce.com");
            ("sessionId", JStr "abc123")]
           (JStr "https://x.my.salesforce.com") (JStr "abc123")).
  - discriminate.
  - reflexivity.
  - reflexivity.
  - reflexivity.
  - reflexivity.
Defined.

(** A query answered with status 200 and an array. *)
Lemma unloggable_success_is_500_witness :
  resp_status (fst (serve (answering array_200) repr ascii_upper Query
                      (mk_request POST (Ok query_payload)))) = 500 /\
  has_key (resp_body (fst (serve (answering array_200) repr ascii_upper Query
                             (mk_request POST (Ok query_payload)))))
    "error" = true.
Proof.
  apply (unloggable_success_is_500 (answering array_200) repr ascii_upper
           Query (mk_request POST (Ok query_payload)) query_call array_200
           (JArr [])).
  - left. reflexivity.
  - reflexivity.
  - reflexivity.
  - reflexivity.
  - reflexivity.
Defined.

(** A number as the method of a generic request. *)
Lemma generic_ill_typed_is_500_witness :
  let rq := mk_request POST
              (Ok (JObj [("instance_url", JStr "https://x.my.salesforce.com");
                         ("endpoint", JStr "/services/data/v58.0/limits");
                         ("auth_token", JStr "abc123");
                         ("method", JNum 7)])) in
  resp_status (fst (serve (answering records_200) repr ascii_upper
                      GeneralProxy rq)) = 500 /\
  snd (serve (answering records_200) repr ascii_upper GeneralProxy rq) = [].
Proof.
  apply (generic_ill_typed_is_500 (answering records_200) repr ascii_upper _
           [("instance_url", JStr "https://x.my.salesforce.com");
            ("endpoint", JStr "/services/data/v58.0/limits");
            ("auth_token", JStr "abc123");
            ("method", JNum 7)]
           "method" (JNum 7)).
  - discriminate.
  - reflexivity.
  - reflexivity.
  - right. reflexivity.
  - reflexivity.
  - reflexivity.
Defined.

(** The payload true on the describe route. *)
Lemma scalar_payload_is_500_witness :
  resp_status (fst (serve (answering records_200) repr ascii_upper
                      (Describe "Account")
                      (mk_request POST (Ok (JBool true))))) = 500 /\
  snd (serve (answering records_200) repr ascii_upper (Describe "Account")
         (mk_request POST (Ok (JBool true)))) = [].
Proof.
  apply (scalar_payload_is_500 (answering records_200) repr ascii_upper
           (Describe "Account") (mk_request POST (Ok (JBool true)))
           (JBool true)).
  - discriminate.
  - reflexivity.
  - left. reflexivity.
Defined.
